(** * PWM output engine of the LEDTouchTable pixel firmware

    A shallow embedding of [src/pwm.c] (with [src/color.h]): the brightness
    table [pwm_table], the stored colour [pwm_color_rgb], the special function
    registers the driver touches, and the five operations [pwm_init],
    [pwm_enable], [pwm_disable], [pwm_set_color_rgb] and [pwm_get_color_rgb].

    Integers of the C program are modelled as [Z]; every conversion to a
    narrower unsigned type that the C code performs is written out as a
    reduction modulo [2^8] or [2^16].  The driver's statements are sequenced
    in a small state monad over the register file and the driver's global. *)

From Stdlib Require Import ZArith List Bool Lia.
Import ListNotations.

Local Open Scope Z_scope.

(** ** Fixed-width integers *)

Module Width.

(** Conversion to [uint8_t]. *)
Definition wrap8 (v : Z) : Z := v mod 2 ^ 8.

(** Conversion to [uint16_t]. *)
Definition wrap16 (v : Z) : Z := v mod 2 ^ 16.

(** [UINT16_MAX] of [<stdint.h>]. *)
Definition UINT16_MAX : Z := 65535.

(** [_BV(bit)] of avr-libc: [(1 << (bit))]. *)
Definition _BV (bit : Z) : Z := Z.shiftl 1 bit.

Definition is_uint8 (v : Z) : Prop := 0 <= v < 2 ^ 8.
Definition is_uint16 (v : Z) : Prop := 0 <= v < 2 ^ 16.

End Width.
Import Width.

(** ** color.h *)

(** [color_rgb_t]: three [uint8_t] components. *)
Record color_rgb_t : Type := Color {
  red : Z;
  green : Z;
  blue : Z
}.

(** Every component is in the range of [uint8_t]. *)
Definition color_ok (c : color_rgb_t) : Prop :=
  is_uint8 (red c) /\ is_uint8 (green c) /\ is_uint8 (blue c).

(** ** The brightness table *)

(** [static const uint16_t PROGMEM pwm_table[256]]. *)
Definition pwm_table : list Z :=
  [ 0; 1; 1; 1; 1; 1; 1; 1; 1; 2; 2; 2; 2; 2; 2; 2; 2; 2; 2; 2; 2; 3;
    3; 3; 3; 3; 3; 3; 4; 4; 4; 4; 4; 4; 5; 5; 5; 5; 5; 6; 6; 6; 6; 7;
    7; 7; 8; 8; 8; 9; 9; 10; 10; 10; 11; 11; 12; 12; 13; 13; 14; 15;
    15; 16; 17; 17; 18; 19; 20; 21; 22; 23; 24; 25; 26; 27; 28; 29;
    31; 32; 33; 35; 36; 38; 40; 41; 43; 45; 47; 49; 52; 54; 56; 59;
    61; 64; 67; 70; 73; 76; 79; 83; 87; 91; 95; 99; 103; 108; 112;
    117; 123; 128; 134; 140; 146; 152; 159; 166; 173; 181; 189; 197;
    206; 215; 225; 235; 245; 256; 267; 279; 292; 304; 318; 332; 347;
    362; 378; 395; 412; 431; 450; 470; 490; 512; 535; 558; 583; 609;
    636; 664; 693; 724; 756; 790; 825; 861; 899; 939; 981; 1024; 1069;
    1117; 1166; 1218; 1272; 1328; 1387; 1448; 1512; 1579; 1649; 1722;
    1798; 1878; 1961; 2048; 2139; 2233; 2332; 2435; 2543; 2656; 2773;
    2896; 3025; 3158; 3298; 3444; 3597; 3756; 3922; 4096; 4277; 4467;
    4664; 4871; 5087; 5312; 5547; 5793; 6049; 6317; 6596; 6889; 7194;
    7512; 7845; 8192; 8555; 8933; 9329; 9742; 10173; 10624; 11094;
    11585; 12098; 12634; 13193; 13777; 14387; 15024; 15689; 16384;
    17109; 17867; 18658; 19484; 20346; 21247; 22188; 23170; 24196;
    25267; 26386; 27554; 28774; 30048; 31378; 32768; 34218; 35733;
    37315; 38967; 40693; 42494; 44376; 46340; 48392; 50534; 52772;
    55108; 57548; 60096; 62757; 65535 ].

(** [pgm_read_word(&(pwm_table[level]))]: the table word at index [level].
    The C index is a [uint8_t], so it always lies inside the array; the
    default of [nth] is never reached for such an index. *)
Definition value_at (level : Z) : Z := nth (Z.to_nat level) pwm_table 0.

(** Executable check that a list never decreases from one entry to the next. *)
Fixpoint nondecreasingb (l : list Z) : bool :=
  match l with
  | [] => true
  | x :: tl =>
      match tl with
      | [] => true
      | y :: _ => (x <=? y) && nondecreasingb tl
      end
  end.

(** Executable check that every entry fits a [uint16_t]. *)
Definition all_uint16b (l : list Z) : bool :=
  forallb (fun v => (0 <=? v) && (v <? 2 ^ 16)) l.

(** ** The device header

    [<avr/io.h>] is not part of the repository: the bit numbers it defines
    are taken as parameters of the development.  [SREG_I] is the position of
    the global interrupt-enable flag in [SREG]. *)
Class avr_io_h : Type := {
  PA4 : Z; PA5 : Z; PA6 : Z;
  COM1A1 : Z; COM1A0 : Z; COM1B1 : Z; COM1B0 : Z;
  WGM11 : Z; WGM13 : Z; CS10 : Z;
  COM2A1 : Z; COM2A0 : Z;
  WGM21 : Z; WGM23 : Z; CS20 : Z;
  TOCC3S1 : Z; TOCC4S0 : Z; TOCC5S0 : Z;
  TOCC3OE : Z; TOCC4OE : Z; TOCC5OE : Z;
  SREG_I : Z
}.

(** The bit numbers of the ATtiny441/841 register summary. *)
Definition attiny841 : avr_io_h := {|
  PA4 := 4; PA5 := 5; PA6 := 6;
  COM1A1 := 7; COM1A0 := 6; COM1B1 := 5; COM1B0 := 4;
  WGM11 := 1; WGM13 := 4; CS10 := 0;
  COM2A1 := 7; COM2A0 := 6;
  WGM21 := 1; WGM23 := 4; CS20 := 0;
  TOCC3S1 := 7; TOCC4S0 := 0; TOCC5S0 := 2;
  TOCC3OE := 3; TOCC4OE := 4; TOCC5OE := 5;
  SREG_I := 7
|}.

(** ** Special function registers *)

(** The 8-bit registers the driver accesses. *)
Inductive sfr8 : Type :=
  | PORTA | DDRA
  | TOCPMSA0 | TOCPMSA1 | TOCPMCOE
  | TCCR1A | TCCR1B | TCCR2A | TCCR2B
  | SREG.

(** The 16-bit registers the driver accesses. *)
Inductive sfr16 : Type :=
  | OCR1A | OCR1B | OCR2A | ICR1 | ICR2.

Definition sfr8_eq_dec (r r' : sfr8) : {r = r'} + {r <> r'}.
Proof. decide equality. Defined.

Definition sfr16_eq_dec (r r' : sfr16) : {r = r'} + {r <> r'}.
Proof. decide equality. Defined.

(** Contents of the register file. *)
Record avr_io : Type := Io {
  io_PORTA : Z; io_DDRA : Z;
  io_TOCPMSA0 : Z; io_TOCPMSA1 : Z; io_TOCPMCOE : Z;
  io_TCCR1A : Z; io_TCCR1B : Z; io_TCCR2A : Z; io_TCCR2B : Z;
  io_SREG : Z;
  io_OCR1A : Z; io_OCR1B : Z; io_OCR2A : Z; io_ICR1 : Z; io_ICR2 : Z
}.

Definition get8 (r : sfr8) (m : avr_io) : Z :=
  match r with
  | PORTA => io_PORTA m | DDRA => io_DDRA m
  | TOCPMSA0 => io_TOCPMSA0 m | TOCPMSA1 => io_TOCPMSA1 m
  | TOCPMCOE => io_TOCPMCOE m
  | TCCR1A => io_TCCR1A m | TCCR1B => io_TCCR1B m
  | TCCR2A => io_TCCR2A m | TCCR2B => io_TCCR2B m
  | SREG => io_SREG m
  end.

Definition get16 (r : sfr16) (m : avr_io) : Z :=
  match r with
  | OCR1A => io_OCR1A m | OCR1B => io_OCR1B m | OCR2A => io_OCR2A m
  | ICR1 => io_ICR1 m | ICR2 => io_ICR2 m
  end.

Definition set8 (r : sfr8) (v : Z) (m : avr_io) : avr_io :=
  let '(Io pa dd s0 s1 oe t1a t1b t2a t2b sr o1a o1b o2a i1 i2) := m in
  match r with
  | PORTA    => Io v  dd s0 s1 oe t1a t1b t2a t2b sr o1a o1b o2a i1 i2
  | DDRA     => Io pa v  s0 s1 oe t1a t1b t2a t2b sr o1a o1b o2a i1 i2
  | TOCPMSA0 => Io pa dd v  s1 oe t1a t1b t2a t2b sr o1a o1b o2a i1 i2
  | TOCPMSA1 => Io pa dd s0 v  oe t1a t1b t2a t2b sr o1a o1b o2a i1 i2
  | TOCPMCOE => Io pa dd s0 s1 v  t1a t1b t2a t2b sr o1a o1b o2a i1 i2
  | TCCR1A   => Io pa dd s0 s1 oe v   t1b t2a t2b sr o1a o1b o2a i1 i2
  | TCCR1B   => Io pa dd s0 s1 oe t1a v   t2a t2b sr o1a o1b o2a i1 i2
  | TCCR2A   => Io pa dd s0 s1 oe t1a t1b v   t2b sr o1a o1b o2a i1 i2
  | TCCR2B   => Io pa dd s0 s1 oe t1a t1b t2a v   sr o1a o1b o2a i1 i2
  | SREG     => Io pa dd s0 s1 oe t1a t1b t2a t2b v  o1a o1b o2a i1 i2
  end.

Definition set16 (r : sfr16) (v : Z) (m : avr_io) : avr_io :=
  let '(Io pa dd s0 s1 oe t1a t1b t2a t2b sr o1a o1b o2a i1 i2) := m in
  match r with
  | OCR1A => Io pa dd s0 s1 oe t1a t1b t2a t2b sr v   o1b o2a i1 i2
  | OCR1B => Io pa dd s0 s1 oe t1a t1b t2a t2b sr o1a v   o2a i1 i2
  | OCR2A => Io pa dd s0 s1 oe t1a t1b t2a t2b sr o1a o1b v   i1 i2
  | ICR1  => Io pa dd s0 s1 oe t1a t1b t2a t2b sr o1a o1b o2a v  i2
  | ICR2  => Io pa dd s0 s1 oe t1a t1b t2a t2b sr o1a o1b o2a i1 v
  end.

(** Every register holds a value of its width. *)
Definition io_ok (m : avr_io) : Prop :=
  (forall r : sfr8, is_uint8 (get8 r m)) /\
  (forall r : sfr16, is_uint16 (get16 r m)).

(** ** Program state *)

(** The register file together with the driver's only global variable,
    [color_rgb_t pwm_color_rgb]. *)
Record state : Type := State {
  io : avr_io;
  pwm_color_rgb : color_rgb_t
}.

(** The state in which [main] starts: [pwm_color_rgb] holds its initializer
    [{0, 0, 0}]; the registers hold whatever the hardware left in them. *)
Definition startup (m : avr_io) : state :=
  {| io := m; pwm_color_rgb := Color 0 0 0 |}.

Definition state_ok (s : state) : Prop :=
  io_ok (io s) /\ color_ok (pwm_color_rgb s).

(** A pointer to a [color_rgb_t]: either the address of the global
    [pwm_color_rgb], or the address of an object of the caller, which the
    driver never writes and which is therefore represented by its contents. *)
Inductive color_ptr : Type :=
  | Addr_pwm_color_rgb
  | Addr_caller (obj : color_rgb_t).

(** ** Sequencing of statements *)

Module Stmt.

Definition M (A : Type) : Type := state -> A * state.

Definition ret {A} (a : A) : M A := fun s => (a, s).

Definition bind {A B} (c : M A) (k : A -> M B) : M B :=
  fun s => let '(a, s') := c s in k a s'.

(** State after running a statement. *)
Definition exec {A} (c : M A) (s : state) : state := snd (c s).

(** Value returned by a statement. *)
Definition eval {A} (c : M A) (s : state) : A := fst (c s).

(** Read of an 8-bit register. *)
Definition read8 (r : sfr8) : M Z := fun s => (get8 r (io s), s).

(** Write of a [uint8_t] value to an 8-bit register. *)
Definition write8 (r : sfr8) (v : Z) : M unit :=
  fun s => (tt, {| io := set8 r v (io s); pwm_color_rgb := pwm_color_rgb s |}).

(** Read of a 16-bit register. *)
Definition read16 (r : sfr16) : M Z := fun s => (get16 r (io s), s).

(** Write of a [uint16_t] value to a 16-bit register. *)
Definition write16 (r : sfr16) (v : Z) : M unit :=
  fun s => (tt, {| io := set16 r v (io s); pwm_color_rgb := pwm_color_rgb s |}).

(** [*p] for a [color_rgb_t* p]. *)
Definition deref (p : color_ptr) : M color_rgb_t :=
  fun s => (match p with
            | Addr_pwm_color_rgb => pwm_color_rgb s
            | Addr_caller obj => obj
            end, s).

(** [pwm_color_rgb = c]. *)
Definition assign_pwm_color_rgb (c : color_rgb_t) : M unit :=
  fun s => (tt, {| io := io s; pwm_color_rgb := c |}).

End Stmt.
Import Stmt.

Declare Scope stmt_scope.
Delimit Scope stmt_scope with stmt.
Notation "x <- c ;; k" := (bind c (fun x => k))
  (at level 61, c at next level, right associativity) : stmt_scope.
Notation "c ;; k" := (bind c (fun _ => k))
  (at level 61, right associativity) : stmt_scope.
Notation "a .| b" := (Z.lor a b) (at level 50, left associativity) : Z_scope.
Notation "a .& b" := (Z.land a b) (at level 40, left associativity) : Z_scope.
Notation ".~ a" := (Z.lnot a) (at level 35, right associativity) : Z_scope.

Local Open Scope stmt_scope.

(** [r = v] where [v] has type [int]: the value is converted to [uint8_t]. *)
Definition assign8 (r : sfr8) (v : Z) : M unit := write8 r (wrap8 v).

(** [r = v] where [v] has type [int] or [unsigned]: conversion to
    [uint16_t]. *)
Definition assign16 (r : sfr16) (v : Z) : M unit := write16 r (wrap16 v).

(** [r |= v]: the register is read, promoted, or-ed and written back. *)
Definition or_assign8 (r : sfr8) (v : Z) : M unit :=
  old <- read8 r ;; write8 r (wrap8 (old .| v)).

(** [r &= v]. *)
Definition and_assign8 (r : sfr8) (v : Z) : M unit :=
  old <- read8 r ;; write8 r (wrap8 (old .& v)).

(** ** pwm.c *)

Section Driver.

Context {hdr : avr_io_h}.

(** [cli()] of [<avr/interrupt.h>]: clears the global interrupt-enable flag
    of [SREG] and leaves the other flags alone. *)
Definition cli : M unit := and_assign8 SREG (.~ _BV SREG_I).

(** [void pwm_init()]. *)
Definition pwm_init : M unit :=
  (* Disable LEDs (active low) *)
  or_assign8 PORTA (_BV PA6 .| _BV PA5 .| _BV PA4) ;;
  (* Define PWM pins as output *)
  or_assign8 DDRA (_BV PA6 .| _BV PA5 .| _BV PA4) ;;
  (* Reset compare values *)
  assign16 OCR1A 0 ;;
  assign16 OCR1B 0 ;;
  assign16 OCR2A 0 ;;
  (* Setup TOCC channels *)
  assign8 TOCPMSA0 (_BV TOCC3S1) ;;
  assign8 TOCPMSA1 (_BV TOCC4S0 .| _BV TOCC5S0) ;;
  (* Enable TOCC channels *)
  assign8 TOCPMCOE (_BV TOCC5OE .| _BV TOCC4OE .| _BV TOCC3OE) ;;
  (* Setup timers *)
  assign16 ICR1 UINT16_MAX ;;
  assign8 TCCR1A (_BV WGM11) ;;
  assign8 TCCR1B (_BV WGM13 .| _BV CS10) ;;
  assign16 ICR2 UINT16_MAX ;;
  assign8 TCCR2A (_BV WGM21) ;;
  assign8 TCCR2B (_BV WGM23 .| _BV CS20).

(** [void pwm_enable()]. *)
Definition pwm_enable : M unit :=
  (* Save global interrupt flag and disable interrupts *)
  tmp <- read8 SREG ;;
  cli ;;
  (* Disable pins *)
  or_assign8 PORTA (_BV PA6 .| _BV PA5 .| _BV PA4) ;;
  (* Connect OCnA/OCnB *)
  or_assign8 TCCR1A (_BV COM1A1 .| _BV COM1A0 .| _BV COM1B1 .| _BV COM1B0) ;;
  or_assign8 TCCR2A (_BV COM2A1 .| _BV COM2A0) ;;
  (* Restore global interrupt flag *)
  write8 SREG tmp.

(** [void pwm_disable()]. *)
Definition pwm_disable : M unit :=
  (* Save global interrupt flag and disable interrupts *)
  tmp <- read8 SREG ;;
  cli ;;
  (* Normal port operation, OCnA/OCnB disconnected *)
  and_assign8 TCCR1A
    (.~ (_BV COM1A1 .| _BV COM1A0 .| _BV COM1B1 .| _BV COM1B0)) ;;
  and_assign8 TCCR2A (.~ (_BV COM2A1 .| _BV COM2A0)) ;;
  (* Disable pins *)
  or_assign8 PORTA (_BV PA6 .| _BV PA5 .| _BV PA4) ;;
  (* Restore global interrupt flag *)
  write8 SREG tmp.

(** [static void pwm_set_compare_values(uint16_t red, uint16_t green,
    uint16_t blue)]. *)
Definition pwm_set_compare_values (red green blue : Z) : M unit :=
  (* Save global interrupt flag and disable interrupts *)
  tmp <- read8 SREG ;;
  cli ;;
  (* Assign compare values *)
  write16 OCR1A red ;;
  write16 OCR1B green ;;
  write16 OCR2A blue ;;
  (* Restore global interrupt flag *)
  write8 SREG tmp.

(** [void pwm_set_color_rgb(color_rgb_t* color)].  The argument is read
    through the pointer again after the global has been assigned, as in the
    source. *)
Definition pwm_set_color_rgb (color : color_ptr) : M unit :=
  (* Save color *)
  c <- deref color ;;
  assign_pwm_color_rgb c ;;
  (* Get PWM compare values for each channel separately *)
  cr <- deref color ;;
  let red_value := value_at (red cr) in
  cg <- deref color ;;
  let green_value := value_at (green cg) in
  cb <- deref color ;;
  let blue_value := value_at (blue cb) in
  (* Apply PWM compare values *)
  pwm_set_compare_values red_value green_value blue_value.

(** [const color_rgb_t* pwm_get_color_rgb()]. *)
Definition pwm_get_color_rgb : M color_ptr := ret Addr_pwm_color_rgb.

(** The colour a caller sees behind the pointer [pwm_get_color_rgb]
    returns. *)
Definition get_color : M color_rgb_t :=
  p <- pwm_get_color_rgb ;; deref p.

(** [set_color] for a colour passed by value: the caller holds it in an
    object of its own and passes the address. *)
Definition set_color (c : color_rgb_t) : M unit :=
  pwm_set_color_rgb (Addr_caller c).

(** ** Observations on the state *)

(** Bit [b] of the 8-bit register [r]. *)
Definition bit_of (r : sfr8) (b : Z) (s : state) : bool :=
  Z.testbit (get8 r (io s)) b.

(** The three LED pins are at the inactive level: the LEDs are active low,
    so the port latch bits [PA6], [PA5] and [PA4] are all set. *)
Definition pins_inactive (s : state) : bool :=
  bit_of PORTA PA6 s && bit_of PORTA PA5 s && bit_of PORTA PA4 s.

(** The compare outputs are disconnected from the pins (normal port
    operation): no [COMnx] bit is set. *)
Definition outputs_disconnected (s : state) : bool :=
  negb (bit_of TCCR1A COM1A1 s) && negb (bit_of TCCR1A COM1A0 s) &&
  negb (bit_of TCCR1A COM1B1 s) && negb (bit_of TCCR1A COM1B0 s) &&
  negb (bit_of TCCR2A COM2A1 s) && negb (bit_of TCCR2A COM2A0 s).

(** The mask [_BV(PA6) | _BV(PA5) | _BV(PA4)] of the three LED pins. *)
Definition led_pins : Z := _BV PA6 .| _BV PA5 .| _BV PA4.

(** The mask of the compare-output mode bits of timer 1 that the driver
    sets and clears. *)
Definition com1_bits : Z :=
  _BV COM1A1 .| _BV COM1A0 .| _BV COM1B1 .| _BV COM1B0.

(** The same for timer 2. *)
Definition com2_bits : Z := _BV COM2A1 .| _BV COM2A0.

(** The bit numbers of the pins lie inside the 8-bit port. *)
Definition pin_bits_ok : Prop :=
  (0 <= PA4 < 8) /\ (0 <= PA5 < 8) /\ (0 <= PA6 < 8).

End Driver.

(** ** Frame conditions *)

(** A statement that never assigns the global [pwm_color_rgb]. *)
Definition keeps_color {A} (c : M A) : Prop :=
  forall s : state, pwm_color_rgb (exec c s) = pwm_color_rgb s.

(** A statement whose last step, on every path through its sequence, is the
    write of [tmp] to [SREG]. *)
Inductive restores_SREG (tmp : Z) : forall {A : Type}, M A -> Prop :=
  | restores_write : restores_SREG tmp (write8 SREG tmp)
  | restores_bind {A B : Type} (c : M A) (k : A -> M B) :
      (forall a : A, restores_SREG tmp (k a)) -> restores_SREG tmp (bind c k).

(** A register file with arbitrary-looking contents, interrupts enabled. *)
Definition sample_io : avr_io :=
  Io 0x05 0x03 0x1b 0x2c 0x07 0xa6 0x19 0x43 0x11 0x82
     0x1234 0xbeef 0x0042 0x7fff 0x8000.

Definition sample_state : state :=
  {| io := sample_io; pwm_color_rgb := Color 12 200 255 |}.

(** ** Further observations and the callers of the driver *)

Section Callers.

Context {hdr : avr_io_h}.

(** All compare-output mode bits the driver handles are set: the three
    compare outputs drive their pins. *)
Definition outputs_connected (s : state) : bool :=
  bit_of TCCR1A COM1A1 s && bit_of TCCR1A COM1A0 s &&
  bit_of TCCR1A COM1B1 s && bit_of TCCR1A COM1B0 s &&
  bit_of TCCR2A COM2A1 s && bit_of TCCR2A COM2A0 s.

(** The three LED pins are configured as outputs. *)
Definition pins_are_outputs (s : state) : bool :=
  bit_of DDRA PA6 s && bit_of DDRA PA5 s && bit_of DDRA PA4 s.

(** The compare registers hold the table entries of the stored colour. *)
Definition in_sync (s : state) : Prop :=
  get16 OCR1A (io s) = value_at (red (pwm_color_rgb s)) /\
  get16 OCR1B (io s) = value_at (green (pwm_color_rgb s)) /\
  get16 OCR2A (io s) = value_at (blue (pwm_color_rgb s)).

(** The compare-output mode bits lie inside their 8-bit registers. *)
Definition com_bits_ok : Prop :=
  (0 <= COM1A1 < 8) /\ (0 <= COM1A0 < 8) /\
  (0 <= COM1B1 < 8) /\ (0 <= COM1B0 < 8) /\
  (0 <= COM2A1 < 8) /\ (0 <= COM2A0 < 8).

(** The waveform-generation bit that [pwm_init] writes to [TCCRnA] is none
    of the compare-output mode bits of that register. *)
Definition mode_bits_apart : Prop :=
  (WGM11 <> COM1A1 /\ WGM11 <> COM1A0 /\ WGM11 <> COM1B1 /\ WGM11 <> COM1B0) /\
  (WGM21 <> COM2A1 /\ WGM21 <> COM2A0).

(** A call of one of the functions that [pwm.h] declares. *)
Inductive pwm_call : Type :=
  | Call_init
  | Call_enable
  | Call_disable
  | Call_set_color_rgb (color : color_ptr)
  | Call_get_color_rgb.

Definition call (c : pwm_call) : M unit :=
  match c with
  | Call_init => pwm_init
  | Call_enable => pwm_enable
  | Call_disable => pwm_disable
  | Call_set_color_rgb color => pwm_set_color_rgb color
  | Call_get_color_rgb => _ <- pwm_get_color_rgb ;; ret tt
  end.

(** A caller that makes the given calls one after the other. *)
Fixpoint calls (l : list pwm_call) : M unit :=
  match l with
  | [] => ret tt
  | c :: tl => call c ;; calls tl
  end.

Definition is_init (c : pwm_call) : bool :=
  match c with Call_init => true | _ => false end.

(** No call of the sequence is [pwm_init]. *)
Definition no_init (l : list pwm_call) : bool :=
  forallb (fun c => negb (is_init c)) l.

(** The colour object a call passes has [uint8_t] components. *)
Definition call_ok (c : pwm_call) : Prop :=
  match c with
  | Call_set_color_rgb (Addr_caller obj) => color_ok obj
  | _ => True
  end.

(** *** main.c *)

(** The two places control can be at in [main]: before [pwm_init()] and at
    the empty loop [while(1);].  There is no place after the loop. *)
Inductive main_pc : Type :=
  | At_pwm_init
  | At_while.

(** One step of [main]. *)
Definition main_step (c : main_pc * state) : main_pc * state :=
  match c with
  | (At_pwm_init, s) => (At_while, exec pwm_init s)
  | (At_while, s) => (At_while, s)
  end.

(** [main] after [n] steps, started with the registers holding [m]. *)
Definition main_run (n : nat) (m : avr_io) : main_pc * state :=
  Nat.iter n main_step (At_pwm_init, startup m).

End Callers.


(** * Properties *)

(** ** Bit-level facts about the conversions *)

Section Bits.

Lemma wrap8_bits (v i : Z) :
  Z.testbit (wrap8 v) i = (i <? 8) && Z.testbit v i.
Proof. unfold wrap8. apply Z.testbit_mod_pow2. lia. Qed.

Lemma wrap8_range (v : Z) : is_uint8 (wrap8 v).
Proof. unfold is_uint8, wrap8. apply Z.mod_pos_bound. lia. Qed.

Lemma wrap16_range (v : Z) : is_uint16 (wrap16 v).
Proof. unfold is_uint16, wrap16. apply Z.mod_pos_bound. lia. Qed.

(** Or-ing the same mask in a second time changes nothing. *)
Lemma wrap8_or_again (x m : Z) :
  wrap8 (wrap8 (x .| m) .| m) = wrap8 (x .| m).
Proof.
  apply Z.bits_inj'. intros i _.
  rewrite !wrap8_bits, !Z.lor_spec, wrap8_bits, Z.lor_spec.
  destruct (i <? 8), (Z.testbit x i), (Z.testbit m i); reflexivity.
Qed.

(** And-ing with the same mask a second time changes nothing. *)
Lemma wrap8_and_again (x m : Z) :
  wrap8 (wrap8 (x .& m) .& m) = wrap8 (x .& m).
Proof.
  apply Z.bits_inj'. intros i _.
  rewrite !wrap8_bits, !Z.land_spec, wrap8_bits, Z.land_spec.
  destruct (i <? 8), (Z.testbit x i), (Z.testbit m i); reflexivity.
Qed.

Lemma BV_bits (b i : Z) : 0 <= b -> Z.testbit (_BV b) i = (b =? i).
Proof. intros Hb. unfold _BV. rewrite Z.shiftl_1_l. now apply Z.pow2_bits_eqb. Qed.

(** A bit of the port that the mask sets is set after [r |= mask]. *)
Lemma or_mask_sets (x m b : Z) :
  0 <= b < 8 -> Z.testbit m b = true -> Z.testbit (wrap8 (x .| m)) b = true.
Proof.
  intros Hb Hm. rewrite wrap8_bits, Z.lor_spec, Hm, orb_true_r.
  destruct (Z.ltb_spec b 8); [reflexivity | lia].
Qed.

(** A bit that the mask holds is clear after [r &= ~mask]. *)
Lemma andn_mask_clears (x m b : Z) :
  (0 <= b -> Z.testbit m b = true) ->
  Z.testbit (wrap8 (x .& .~ m)) b = false.
Proof.
  intros Hm. destruct (Z.lt_ge_cases b 0) as [Hneg | Hpos].
  - now apply Z.testbit_neg_r.
  - rewrite wrap8_bits, Z.land_spec, Z.lnot_spec, (Hm Hpos) by assumption.
    cbn. now rewrite !andb_false_r.
Qed.

End Bits.

(** ** The brightness table *)

Section Table.

Lemma nondecreasingb_nth (l : list Z) (d : Z) :
  nondecreasingb l = true ->
  forall i : nat, (S i < length l)%nat -> nth i l d <= nth (S i) l d.
Proof.
  induction l as [| x tl IH]; intros Hs i Hi.
  - inversion Hi.
  - destruct tl as [| y tl'].
    + cbn in Hi. lia.
    + cbn [nondecreasingb] in Hs. apply andb_true_iff in Hs as [Hxy Htl].
      destruct i as [| j].
      * cbn. now apply Z.leb_le.
      * change (nth j (y :: tl') d <= nth (S j) (y :: tl') d).
        apply IH; [exact Htl | cbn in Hi |- *; lia].
Qed.

Lemma pwm_table_length : length pwm_table = 256%nat.
Proof. reflexivity. Qed.

Lemma pwm_table_nondecreasing : nondecreasingb pwm_table = true.
Proof. vm_compute. reflexivity. Qed.

Lemma pwm_table_uint16 : all_uint16b pwm_table = true.
Proof. vm_compute. reflexivity. Qed.

(** Every lookup with a [uint8_t] index yields a [uint16_t] value. *)
Lemma value_at_uint16 (level : Z) : is_uint8 level -> is_uint16 (value_at level).
Proof.
  intros [Hlo Hhi]. unfold value_at, is_uint16.
  assert (Hin : In (nth (Z.to_nat level) pwm_table 0) pwm_table).
  { apply nth_In. rewrite pwm_table_length. change (2 ^ 8) with 256 in Hhi. lia. }
  pose proof pwm_table_uint16 as Hall. unfold all_uint16b in Hall.
  rewrite forallb_forall in Hall. specialize (Hall _ Hin).
  apply andb_true_iff in Hall as [H0 H1].
  apply Z.leb_le in H0. apply Z.ltb_lt in H1. lia.
Qed.

(** C2: the brightness table never decreases: for every level [L] with
    [0 <= L < 255], the entry at [L] is at most the entry at [L + 1]. *)
Theorem C2_table_monotone (L : Z) :
  0 <= L < 255 -> value_at L <= value_at (L + 1).
Proof.
  intros HL. unfold value_at.
  replace (Z.to_nat (L + 1)) with (S (Z.to_nat L)) by lia.
  apply nondecreasingb_nth.
  - exact pwm_table_nondecreasing.
  - rewrite pwm_table_length. lia.
Qed.

(** The step from level 8 to level 9 (compare value 1 to 2) and the last
    step, from level 254 to level 255. *)
Lemma C2_table_monotone_witness :
  (0 <= 8 < 255 /\ value_at 8 <= value_at (8 + 1)) /\
  (0 <= 254 < 255 /\ value_at 254 <= value_at (254 + 1)).
Proof.
  split; (split; [lia | apply C2_table_monotone; lia]).
Defined.

(** C3: the endpoints of the table are fixed: level 0 gives 0 and level 255
    gives 65535, the largest 16-bit value. *)
Theorem C3_table_endpoints :
  value_at 0 = 0 /\ value_at 255 = 65535 /\ value_at 255 = UINT16_MAX /\
  UINT16_MAX = 2 ^ 16 - 1.
Proof. repeat split. Qed.

End Table.

(** ** Sequencing and register-file laws *)

Section Laws.

Lemma exec_bind {A B} (c : M A) (k : A -> M B) (s : state) :
  exec (bind c k) s = exec (k (eval c s)) (exec c s).
Proof. unfold exec, eval, bind. destruct (c s) as [a s']. reflexivity. Qed.

Lemma eval_bind {A B} (c : M A) (k : A -> M B) (s : state) :
  eval (bind c k) s = eval (k (eval c s)) (exec c s).
Proof. unfold exec, eval, bind. destruct (c s) as [a s']. reflexivity. Qed.

Lemma get8_set8_same (r : sfr8) (v : Z) (m : avr_io) : get8 r (set8 r v m) = v.
Proof. destruct m, r; reflexivity. Qed.

Lemma get8_set8_other (r r' : sfr8) (v : Z) (m : avr_io) :
  r <> r' -> get8 r' (set8 r v m) = get8 r' m.
Proof. intros Hne. destruct m, r, r'; try reflexivity; now elim Hne. Qed.

Lemma get16_set16_same (r : sfr16) (v : Z) (m : avr_io) :
  get16 r (set16 r v m) = v.
Proof. destruct m, r; reflexivity. Qed.

Lemma get16_set16_other (r r' : sfr16) (v : Z) (m : avr_io) :
  r <> r' -> get16 r' (set16 r v m) = get16 r' m.
Proof. intros Hne. destruct m, r, r'; try reflexivity; now elim Hne. Qed.

Lemma get16_set8 (r : sfr8) (r' : sfr16) (v : Z) (m : avr_io) :
  get16 r' (set8 r v m) = get16 r' m.
Proof. destruct m, r, r'; reflexivity. Qed.

Lemma get8_set16 (r : sfr16) (r' : sfr8) (v : Z) (m : avr_io) :
  get8 r' (set16 r v m) = get8 r' m.
Proof. destruct m, r, r'; reflexivity. Qed.

Lemma exec_write8 (r : sfr8) (v : Z) (s : state) :
  io (exec (write8 r v) s) = set8 r v (io s).
Proof. reflexivity. Qed.

Lemma keeps_color_bind {A B} (c : M A) (k : A -> M B) :
  keeps_color c -> (forall a, keeps_color (k a)) -> keeps_color (bind c k).
Proof.
  intros Hc Hk s. rewrite exec_bind. now rewrite Hk, Hc.
Qed.

Lemma keeps_color_ret {A} (a : A) : keeps_color (ret a).
Proof. intros s. reflexivity. Qed.

Lemma keeps_color_read8 (r : sfr8) : keeps_color (read8 r).
Proof. intros s. reflexivity. Qed.

Lemma keeps_color_write8 (r : sfr8) (v : Z) : keeps_color (write8 r v).
Proof. intros s. reflexivity. Qed.

Lemma keeps_color_write16 (r : sfr16) (v : Z) : keeps_color (write16 r v).
Proof. intros s. reflexivity. Qed.

Lemma keeps_color_deref (p : color_ptr) : keeps_color (deref p).
Proof. intros s. reflexivity. Qed.

End Laws.

Create HintDb frame discriminated.
#[export] Hint Resolve keeps_color_ret keeps_color_read8 keeps_color_write8
  keeps_color_write16 keeps_color_deref : frame.

(** Walks down a sequence of statements, leaving one goal per statement. *)
Ltac frame_color :=
  unfold assign8, assign16, or_assign8, and_assign8;
  repeat (apply keeps_color_bind; [ | intro ]);
  auto with frame.

(** ** The driver *)

Section DriverProperties.

Context {hdr : avr_io_h}.

Lemma keeps_color_cli : keeps_color cli.
Proof. unfold cli. frame_color. Qed.

#[local] Hint Resolve keeps_color_cli : frame.

Lemma keeps_color_pwm_init : keeps_color pwm_init.
Proof. unfold pwm_init. frame_color. Qed.

Lemma keeps_color_pwm_enable : keeps_color pwm_enable.
Proof. unfold pwm_enable. frame_color. Qed.

Lemma keeps_color_pwm_disable : keeps_color pwm_disable.
Proof. unfold pwm_disable. frame_color. Qed.

(** Whatever precedes it, a sequence that ends by writing [tmp] to [SREG]
    leaves [tmp] there. *)
Lemma restores_SREG_sound {A} (tmp : Z) (c : M A) :
  restores_SREG tmp c -> forall s : state, get8 SREG (io (exec c s)) = tmp.
Proof.
  induction 1 as [| A B c k _ IH]; intros s.
  - rewrite exec_write8. apply get8_set8_same.
  - rewrite exec_bind. apply IH.
Qed.

Lemma pwm_set_compare_values_SREG (r g b : Z) (s : state) :
  get8 SREG (io (exec (pwm_set_compare_values r g b) s)) = get8 SREG (io s).
Proof.
  unfold pwm_set_compare_values. rewrite exec_bind.
  apply restores_SREG_sound. repeat (constructor; intros).
Qed.

(** C6: [pwm_enable], [pwm_disable] and [pwm_set_color_rgb] each leave
    [SREG], and with it the global interrupt-enable flag, equal to its value
    before the call, from every state. *)
Theorem C6_SREG_restored (s : state) :
  get8 SREG (io (exec pwm_enable s)) = get8 SREG (io s) /\
  get8 SREG (io (exec pwm_disable s)) = get8 SREG (io s) /\
  (forall color : color_ptr,
     get8 SREG (io (exec (pwm_set_color_rgb color) s)) = get8 SREG (io s)) /\
  (forall c : color_rgb_t,
     get8 SREG (io (exec (set_color c) s)) = get8 SREG (io s)).
Proof.
  assert (Hset : forall color : color_ptr,
    get8 SREG (io (exec (pwm_set_color_rgb color) s)) = get8 SREG (io s)).
  { intros color. unfold pwm_set_color_rgb.
    rewrite !exec_bind. cbv zeta. rewrite pwm_set_compare_values_SREG.
    reflexivity. }
  repeat split.
  - unfold pwm_enable. rewrite exec_bind.
    apply restores_SREG_sound. repeat (constructor; intros).
  - unfold pwm_disable. rewrite exec_bind.
    apply restores_SREG_sound. repeat (constructor; intros).
  - exact Hset.
  - intros c. apply Hset.
Qed.

(** *** What each operation leaves in the registers *)

Lemma pwm_enable_exec (s : state) :
  exec pwm_enable s =
  {| io := set8 TCCR2A (wrap8 (get8 TCCR2A (io s) .| com2_bits))
             (set8 TCCR1A (wrap8 (get8 TCCR1A (io s) .| com1_bits))
                (set8 PORTA (wrap8 (get8 PORTA (io s) .| led_pins)) (io s)));
     pwm_color_rgb := pwm_color_rgb s |}.
Proof. destruct s as [[] c]. reflexivity. Qed.

Lemma pwm_disable_exec (s : state) :
  exec pwm_disable s =
  {| io := set8 PORTA (wrap8 (get8 PORTA (io s) .| led_pins))
             (set8 TCCR2A (wrap8 (get8 TCCR2A (io s) .& .~ com2_bits))
                (set8 TCCR1A (wrap8 (get8 TCCR1A (io s) .& .~ com1_bits))
                   (io s)));
     pwm_color_rgb := pwm_color_rgb s |}.
Proof. destruct s as [[] c]. reflexivity. Qed.

Lemma pwm_set_color_rgb_exec (color : color_ptr) (s : state) :
  exec (pwm_set_color_rgb color) s =
  let c := eval (deref color) s in
  {| io := set16 OCR2A (value_at (blue c))
             (set16 OCR1B (value_at (green c))
                (set16 OCR1A (value_at (red c)) (io s)));
     pwm_color_rgb := c |}.
Proof. destruct s as [[] c0], color; reflexivity. Qed.

Lemma led_pins_bits (b : Z) :
  pin_bits_ok -> b = PA4 \/ b = PA5 \/ b = PA6 -> Z.testbit led_pins b = true.
Proof.
  intros (H4 & H5 & H6) Hb. unfold led_pins.
  rewrite !Z.lor_spec, !BV_bits by lia.
  destruct Hb as [-> | [-> | ->]]; rewrite Z.eqb_refl;
    now rewrite ?orb_true_r, ?orb_true_l.
Qed.

Lemma com1_bits_bits (b : Z) :
  0 <= b -> b = COM1A1 \/ b = COM1A0 \/ b = COM1B1 \/ b = COM1B0 ->
  Z.testbit com1_bits b = true.
Proof.
  intros H0 Hb. unfold com1_bits. rewrite !Z.lor_spec.
  destruct Hb as [-> | [-> | [-> | ->]]];
    rewrite (BV_bits _ _ H0), Z.eqb_refl;
    now rewrite ?orb_true_r, ?orb_true_l.
Qed.

Lemma com2_bits_bits (b : Z) :
  0 <= b -> b = COM2A1 \/ b = COM2A0 -> Z.testbit com2_bits b = true.
Proof.
  intros H0 Hb. unfold com2_bits. rewrite !Z.lor_spec.
  destruct Hb as [-> | ->];
    rewrite (BV_bits _ _ H0), Z.eqb_refl;
    now rewrite ?orb_true_r, ?orb_true_l.
Qed.

(** After [pwm_disable] the port latch holds the inactive level on all three
    pins, whatever the state before. *)
Lemma pwm_disable_pins_inactive (s : state) :
  pin_bits_ok -> pins_inactive (exec pwm_disable s) = true.
Proof.
  intros Hok. pose proof Hok as (H4 & H5 & H6).
  rewrite pwm_disable_exec. unfold pins_inactive, bit_of. cbn [io].
  rewrite get8_set8_same.
  rewrite !or_mask_sets; auto using led_pins_bits.
Qed.

(** After [pwm_disable] no compare output is routed to a pin. *)
Lemma pwm_disable_outputs_disconnected (s : state) :
  outputs_disconnected (exec pwm_disable s) = true.
Proof.
  rewrite pwm_disable_exec. unfold outputs_disconnected, bit_of. cbn [io].
  rewrite (get8_set8_other PORTA TCCR1A), (get8_set8_other TCCR2A TCCR1A),
    get8_set8_same by discriminate.
  rewrite (get8_set8_other PORTA TCCR2A), get8_set8_same by discriminate.
  rewrite !andn_mask_clears; [reflexivity | intros H0 ..];
    (apply com1_bits_bits || apply com2_bits_bits); auto.
Qed.

(** *** The claims about the driver *)

(** C1: after [pwm_set_color_rgb] with a colour C, the compare register of
    the red channel ([OCR1A]) holds the table entry for C's red component,
    that of the green channel ([OCR1B]) the entry for its green component and
    that of the blue channel ([OCR2A]) the entry for its blue component, all
    from the one table [pwm_table]; in particular the colour (128,128,128)
    leaves the same value, the entry at 128, in all three. *)
Theorem C1_set_color_compare_registers :
  (forall (color : color_ptr) (s : state),
     get16 OCR1A (io (exec (pwm_set_color_rgb color) s))
       = value_at (red (eval (deref color) s)) /\
     get16 OCR1B (io (exec (pwm_set_color_rgb color) s))
       = value_at (green (eval (deref color) s)) /\
     get16 OCR2A (io (exec (pwm_set_color_rgb color) s))
       = value_at (blue (eval (deref color) s))) /\
  (forall (C : color_rgb_t) (s : state),
     get16 OCR1A (io (exec (set_color C) s)) = value_at (red C) /\
     get16 OCR1B (io (exec (set_color C) s)) = value_at (green C) /\
     get16 OCR2A (io (exec (set_color C) s)) = value_at (blue C)) /\
  (forall s : state,
     get16 OCR1A (io (exec (set_color (Color 128 128 128)) s)) = value_at 128 /\
     get16 OCR1B (io (exec (set_color (Color 128 128 128)) s)) = value_at 128 /\
     get16 OCR2A (io (exec (set_color (Color 128 128 128)) s)) = value_at 128).
Proof.
  assert (Hptr : forall (color : color_ptr) (s : state),
     get16 OCR1A (io (exec (pwm_set_color_rgb color) s))
       = value_at (red (eval (deref color) s)) /\
     get16 OCR1B (io (exec (pwm_set_color_rgb color) s))
       = value_at (green (eval (deref color) s)) /\
     get16 OCR2A (io (exec (pwm_set_color_rgb color) s))
       = value_at (blue (eval (deref color) s))).
  { intros color s. rewrite pwm_set_color_rgb_exec. cbv zeta. cbn [io].
    repeat split.
    - rewrite !get16_set16_other by discriminate. apply get16_set16_same.
    - rewrite get16_set16_other by discriminate. apply get16_set16_same.
    - apply get16_set16_same. }
  split; [exact Hptr | split].
  - intros C s. exact (Hptr (Addr_caller C) s).
  - intros s. exact (Hptr (Addr_caller (Color 128 128 128)) s).
Qed.

(** C4: reading the colour back right after [pwm_set_color_rgb] gives exactly
    the colour that was passed, component for component. *)
Theorem C4_get_after_set :
  (forall (C : color_rgb_t) (s : state),
     eval get_color (exec (set_color C) s) = C) /\
  (forall (color : color_ptr) (s : state),
     eval get_color (exec (pwm_set_color_rgb color) s)
       = eval (deref color) s).
Proof.
  split.
  - intros C s. unfold set_color. rewrite pwm_set_color_rgb_exec. reflexivity.
  - intros color s. rewrite pwm_set_color_rgb_exec. reflexivity.
Qed.

(** C5: when [pwm_init] is the first operation after startup, the colour
    read back afterwards is (0,0,0) and the three compare registers are
    zero. *)
Theorem C5_after_init (m : avr_io) :
  eval get_color (exec pwm_init (startup m)) = Color 0 0 0 /\
  get16 OCR1A (io (exec pwm_init (startup m))) = 0 /\
  get16 OCR1B (io (exec pwm_init (startup m))) = 0 /\
  get16 OCR2A (io (exec pwm_init (startup m))) = 0.
Proof. destruct m. repeat split. Qed.

(** C7: a second [pwm_disable] right after a first one changes nothing: the
    whole state (all registers and the stored colour) is the same as after
    the first. *)
Theorem C7_disable_idempotent (s : state) :
  exec pwm_disable (exec pwm_disable s) = exec pwm_disable s.
Proof.
  rewrite (pwm_disable_exec (exec pwm_disable s)).
  rewrite pwm_disable_exec. destruct s as [[] c]. cbn.
  rewrite !wrap8_and_again, wrap8_or_again. reflexivity.
Qed.

(** C8: from every state, and so for every stored colour, [pwm_enable]
    followed by [pwm_disable] leaves the three output pins at the inactive
    level (and the compare outputs disconnected from them). *)
Theorem C8_enable_disable_pins_inactive (s : state) :
  pin_bits_ok ->
  pins_inactive (exec (pwm_enable ;; pwm_disable) s) = true /\
  outputs_disconnected (exec (pwm_enable ;; pwm_disable) s) = true.
Proof.
  intros Hok. rewrite exec_bind. split.
  - now apply pwm_disable_pins_inactive.
  - apply pwm_disable_outputs_disconnected.
Qed.

(** C9: [pwm_init], [pwm_enable] and [pwm_disable] leave the stored colour
    as it was, from every state. *)
Theorem C9_color_unchanged (s : state) :
  pwm_color_rgb (exec pwm_init s) = pwm_color_rgb s /\
  pwm_color_rgb (exec pwm_enable s) = pwm_color_rgb s /\
  pwm_color_rgb (exec pwm_disable s) = pwm_color_rgb s.
Proof.
  split; [ | split ].
  - apply keeps_color_pwm_init.
  - apply keeps_color_pwm_enable.
  - apply keeps_color_pwm_disable.
Qed.

(** C10: a second [pwm_enable] right after a first one changes nothing: the
    whole state is the same as after the first. *)
Theorem C10_enable_idempotent (s : state) :
  exec pwm_enable (exec pwm_enable s) = exec pwm_enable s.
Proof.
  rewrite (pwm_enable_exec (exec pwm_enable s)).
  rewrite pwm_enable_exec. destruct s as [[] c]. cbn.
  rewrite !wrap8_or_again. reflexivity.
Qed.

(** *** Register widths are respected *)

Lemma io_ok_set8 (r : sfr8) (v : Z) (m : avr_io) :
  is_uint8 v -> io_ok m -> io_ok (set8 r v m).
Proof.
  intros Hv [H8 H16]. split.
  - intros r'. destruct (sfr8_eq_dec r r') as [<- | Hne].
    + now rewrite get8_set8_same.
    + rewrite get8_set8_other by assumption. apply H8.
  - intros r'. rewrite get16_set8. apply H16.
Qed.

Lemma io_ok_set16 (r : sfr16) (v : Z) (m : avr_io) :
  is_uint16 v -> io_ok m -> io_ok (set16 r v m).
Proof.
  intros Hv [H8 H16]. split.
  - intros r'. rewrite get8_set16. apply H8.
  - intros r'. destruct (sfr16_eq_dec r r') as [<- | Hne].
    + now rewrite get16_set16_same.
    + rewrite get16_set16_other by assumption. apply H16.
Qed.

(** [pwm_enable] and [pwm_disable] keep every register within its width. *)
Lemma pwm_enable_disable_state_ok (s : state) :
  state_ok s -> state_ok (exec pwm_enable s) /\ state_ok (exec pwm_disable s).
Proof.
  intros [Hio Hc]. rewrite pwm_enable_exec, pwm_disable_exec.
  split; (split; [cbn [io] | exact Hc]);
    repeat (apply io_ok_set8; [apply wrap8_range | ]); exact Hio.
Qed.

(** With a colour of 8-bit components, [pwm_set_color_rgb] keeps every
    register within its width and stores a colour of 8-bit components. *)
Lemma pwm_set_color_rgb_state_ok (color : color_ptr) (s : state) :
  state_ok s -> color_ok (eval (deref color) s) ->
  state_ok (exec (pwm_set_color_rgb color) s).
Proof.
  intros [Hio _] Hc. rewrite pwm_set_color_rgb_exec. cbv zeta.
  destruct Hc as (Hr & Hg & Hb).
  split; [cbn [io] | exact (conj Hr (conj Hg Hb))].
  repeat (apply io_ok_set16; [now apply value_at_uint16 | ]). exact Hio.
Qed.

End DriverProperties.

(** ** The ATtiny841 instance *)

Lemma attiny841_pin_bits_ok : @pin_bits_ok attiny841.
Proof. unfold pin_bits_ok. cbn. lia. Defined.

(** [pwm_enable] then [pwm_disable] on the ATtiny841, from a state with a
    stored colour and all three pins low. *)
Lemma C8_enable_disable_pins_inactive_witness :
  @pin_bits_ok attiny841 /\
  @pins_inactive attiny841
    (exec (@pwm_enable attiny841 ;; @pwm_disable attiny841) sample_state) = true /\
  @outputs_disconnected attiny841
    (exec (@pwm_enable attiny841 ;; @pwm_disable attiny841) sample_state) = true.
Proof.
  split.
  - exact attiny841_pin_bits_ok.
  - apply (@C8_enable_disable_pins_inactive attiny841 sample_state).
    exact attiny841_pin_bits_ok.
Defined.

(** * Further properties *)

(** ** More about the brightness table *)

Section TableShape.

Lemma nondecreasingb_nth_le (l : list Z) (d : Z) :
  nondecreasingb l = true ->
  forall i j : nat, (i <= j)%nat -> (j < length l)%nat -> nth i l d <= nth j l d.
Proof.
  intros Hs i j Hij. induction Hij as [| j Hij IH]; intros Hj.
  - lia.
  - etransitivity; [apply IH; lia | now apply nondecreasingb_nth].
Qed.


Lemma value_at_le (L1 L2 : Z) :
  0 <= L1 -> L1 <= L2 -> L2 <= 255 -> value_at L1 <= value_at L2.
Proof.
  intros H0 H12 H2. unfold value_at.
  apply nondecreasingb_nth_le.
  - exact pwm_table_nondecreasing.
  - lia.
  - rewrite pwm_table_length. lia.
Qed.


Lemma value_at_positive (L : Z) : 1 <= L <= 255 -> 1 <= value_at L.
Proof.
  intros HL. change (value_at 1 <= value_at L). apply value_at_le; lia.
Qed.

(** X1: a higher level never gives a smaller compare value: for levels
    [L1 <= L2] within 0..255, the table entry at [L1] is at most the entry
    at [L2]. *)
Theorem X1_table_monotone_any (L1 L2 : Z) :
  0 <= L1 -> L1 <= L2 -> L2 <= 255 -> value_at L1 <= value_at L2.
Proof. apply value_at_le. Qed.

Lemma X1_table_monotone_any_witness :
  0 <= 3 /\ 3 <= 200 /\ 200 <= 255 /\ value_at 3 <= value_at 200.
Proof.
  repeat split; try lia. apply (X1_table_monotone_any 3 200); lia.
Defined.


(** X3: level 0 is the only level of a [uint8_t] whose compare value is 0:
    every other level switches the channel on for part of the period. *)
Theorem X3_value_at_zero_iff (L : Z) :
  is_uint8 L -> (value_at L = 0 <-> L = 0).
Proof.
  intros [Hlo Hhi]. change (2 ^ 8) with 256 in Hhi. split.
  - intros Hz. destruct (Z.eq_dec L 0) as [-> | Hne]; [reflexivity | ].
    assert (1 <= value_at L) by (apply value_at_positive; lia). lia.
  - intros ->. reflexivity.
Qed.

Lemma X3_value_at_zero_iff_witness :
  is_uint8 1 /\ (value_at 1 = 0 <-> 1 = 0).
Proof.
  split; [unfold is_uint8; cbn; lia | ].
  apply (X3_value_at_zero_iff 1). unfold is_uint8. cbn. lia.
Defined.

(** X4: every level of a [uint8_t] indexes inside the table and yields a
    value between 0 and [UINT16_MAX], so the compare value read for a colour
    component always fits the 16-bit compare register. *)
Theorem X4_value_at_fits (L : Z) :
  is_uint8 L ->
  (Z.to_nat L < length pwm_table)%nat /\ 0 <= value_at L <= UINT16_MAX.
Proof.
  intros HL. pose proof (value_at_uint16 L HL) as [H0 H1].
  destruct HL as [Hlo Hhi]. change (2 ^ 8) with 256 in Hhi.
  change (2 ^ 16) with 65536 in H1. unfold UINT16_MAX.
  rewrite pwm_table_length. lia.
Qed.

Lemma X4_value_at_fits_witness :
  is_uint8 255 /\
  ((Z.to_nat 255 < length pwm_table)%nat /\ 0 <= value_at 255 <= UINT16_MAX).
Proof.
  split; [unfold is_uint8; cbn; lia | ].
  apply (X4_value_at_fits 255). unfold is_uint8. cbn. lia.
Defined.

End TableShape.

(** ** More about the driver's operations *)

Section MoreBits.

Lemma wrap8_or_then_andn (x m : Z) :
  wrap8 (wrap8 (x .| m) .& .~ m) = wrap8 (x .& .~ m).
Proof.
  apply Z.bits_inj'. intros i Hi.
  rewrite !wrap8_bits, !Z.land_spec, !Z.lnot_spec, wrap8_bits, Z.lor_spec
    by assumption.
  destruct (i <? 8), (Z.testbit x i), (Z.testbit m i); reflexivity.
Qed.

Lemma wrap8_andn_then_or (x m : Z) :
  wrap8 (wrap8 (x .& .~ m) .| m) = wrap8 (x .| m).
Proof.
  apply Z.bits_inj'. intros i Hi.
  rewrite !wrap8_bits, !Z.lor_spec, wrap8_bits, Z.land_spec, Z.lnot_spec
    by assumption.
  destruct (i <? 8), (Z.testbit x i), (Z.testbit m i); reflexivity.
Qed.

Lemma or_mask_keeps (x m b : Z) :
  0 <= b < 8 -> Z.testbit m b = false ->
  Z.testbit (wrap8 (x .| m)) b = Z.testbit x b.
Proof.
  intros Hb Hm. rewrite wrap8_bits, Z.lor_spec, Hm, orb_false_r.
  destruct (Z.ltb_spec b 8); [reflexivity | lia].
Qed.

Lemma andn_mask_keeps (x m b : Z) :
  0 <= b < 8 -> Z.testbit m b = false ->
  Z.testbit (wrap8 (x .& .~ m)) b = Z.testbit x b.
Proof.
  intros Hb Hm. rewrite wrap8_bits, Z.land_spec, Z.lnot_spec, Hm by lia.
  cbn. rewrite andb_true_r.
  destruct (Z.ltb_spec b 8); [reflexivity | lia].
Qed.

(** A bit of [_BV(w)] other than bit [w] is clear, also when [w] is not a
    bit number at all. *)
Lemma BV_other_bit (w b : Z) : w <> b -> Z.testbit (_BV w) b = false.
Proof.
  intros Hne. unfold _BV. rewrite Z.shiftl_1_l. now apply Z.pow2_bits_false.
Qed.

End MoreBits.

Section MoreDriverProperties.

Context {hdr : avr_io_h}.

Lemma pwm_init_exec (s : state) :
  exec pwm_init s =
  {| io := Io (wrap8 (get8 PORTA (io s) .| led_pins))
              (wrap8 (get8 DDRA (io s) .| led_pins))
              (wrap8 (_BV TOCC3S1))
              (wrap8 (_BV TOCC4S0 .| _BV TOCC5S0))
              (wrap8 (_BV TOCC5OE .| _BV TOCC4OE .| _BV TOCC3OE))
              (wrap8 (_BV WGM11))
              (wrap8 (_BV WGM13 .| _BV CS10))
              (wrap8 (_BV WGM21))
              (wrap8 (_BV WGM23 .| _BV CS20))
              (get8 SREG (io s))
              0 0 0 UINT16_MAX UINT16_MAX;
     pwm_color_rgb := pwm_color_rgb s |}.
Proof. destruct s as [[] c]. reflexivity. Qed.

(** X5: from every state, not only at startup, [pwm_init] zeroes the three
    compare registers and sets the top value of both timers to
    [UINT16_MAX]; it never writes [SREG]. *)
Theorem X5_pwm_init_resets_timers (s : state) :
  get16 OCR1A (io (exec pwm_init s)) = 0 /\
  get16 OCR1B (io (exec pwm_init s)) = 0 /\
  get16 OCR2A (io (exec pwm_init s)) = 0 /\
  get16 ICR1 (io (exec pwm_init s)) = UINT16_MAX /\
  get16 ICR2 (io (exec pwm_init s)) = UINT16_MAX /\
  get8 SREG (io (exec pwm_init s)) = get8 SREG (io s).
Proof. rewrite pwm_init_exec. cbn. repeat split. Qed.

Lemma pwm_init_pins (s : state) :
  pin_bits_ok ->
  pins_inactive (exec pwm_init s) = true /\
  pins_are_outputs (exec pwm_init s) = true.
Proof.
  intros Hok. pose proof Hok as (H4 & H5 & H6).
  rewrite pwm_init_exec. unfold pins_inactive, pins_are_outputs, bit_of.
  cbn [io get8 io_PORTA io_DDRA].
  rewrite !or_mask_sets; auto using led_pins_bits.
Qed.

Lemma pwm_init_outputs_disconnected (s : state) :
  mode_bits_apart -> outputs_disconnected (exec pwm_init s) = true.
Proof.
  intros [(Ha & Hb & Hc & Hd) (He & Hf)].
  rewrite pwm_init_exec. unfold outputs_disconnected, bit_of.
  cbn [io get8 io_TCCR1A io_TCCR2A].
  rewrite !wrap8_bits, !BV_other_bit by assumption.
  now rewrite !andb_false_r.
Qed.

(** X6: after [pwm_init] no signal is output: the three LED pins are
    outputs held at the inactive level and no compare output is connected
    to a pin. *)
Theorem X6_pwm_init_no_output (s : state) :
  pin_bits_ok -> mode_bits_apart ->
  pins_inactive (exec pwm_init s) = true /\
  pins_are_outputs (exec pwm_init s) = true /\
  outputs_disconnected (exec pwm_init s) = true.
Proof.
  intros Hpins Hmode. destruct (pwm_init_pins s Hpins) as [Hin Hout].
  repeat split; try assumption. now apply pwm_init_outputs_disconnected.
Qed.

(** X7: a second [pwm_init] right after a first one changes nothing. *)
Theorem X7_pwm_init_idempotent (s : state) :
  exec pwm_init (exec pwm_init s) = exec pwm_init s.
Proof.
  rewrite (pwm_init_exec (exec pwm_init s)). rewrite pwm_init_exec.
  cbn [io pwm_color_rgb get8 io_PORTA io_DDRA io_SREG].
  now rewrite !wrap8_or_again.
Qed.

(** X8: the state [pwm_init] leaves depends only on the previous contents
    of [PORTA], [DDRA] and [SREG] and on the stored colour: every other
    register is overwritten whatever it held. *)
Theorem X8_pwm_init_overwrites (s1 s2 : state) :
  get8 PORTA (io s1) = get8 PORTA (io s2) ->
  get8 DDRA (io s1) = get8 DDRA (io s2) ->
  get8 SREG (io s1) = get8 SREG (io s2) ->
  pwm_color_rgb s1 = pwm_color_rgb s2 ->
  exec pwm_init s1 = exec pwm_init s2.
Proof.
  intros Hp Hd Hs Hc. rewrite !pwm_init_exec. now rewrite Hp, Hd, Hs, Hc.
Qed.

(** X9: [pwm_enable] and [pwm_disable] write no register other than
    [PORTA], [TCCR1A] and [TCCR2A] (and [SREG], which they restore): the
    compare registers, the timer tops, the clock selection and the pin
    directions stay as they are. *)
Theorem X9_enable_disable_frame (s : state) :
  (forall r : sfr8, r <> PORTA -> r <> TCCR1A -> r <> TCCR2A ->
     get8 r (io (exec pwm_enable s)) = get8 r (io s) /\
     get8 r (io (exec pwm_disable s)) = get8 r (io s)) /\
  (forall r : sfr16,
     get16 r (io (exec pwm_enable s)) = get16 r (io s) /\
     get16 r (io (exec pwm_disable s)) = get16 r (io s)).
Proof.
  rewrite pwm_enable_exec, pwm_disable_exec. cbn [io]. split.
  - intros r Hp H1 H2.
    rewrite !get8_set8_other by (intros E; symmetry in E; contradiction).
    split; reflexivity.
  - intros r. rewrite !get16_set8. split; reflexivity.
Qed.

(** X10: [pwm_enable] and [pwm_disable] change only the bits they name: a
    bit of [TCCR1A] outside the [COM1xx] mask, a bit of [TCCR2A] outside the
    [COM2Ax] mask and a bit of [PORTA] outside the LED pins keep their
    values, so the waveform mode that [pwm_init] selected survives. *)
Theorem X10_enable_disable_keep_other_bits (s : state) (b : Z) :
  0 <= b < 8 ->
  (Z.testbit com1_bits b = false ->
     bit_of TCCR1A b (exec pwm_enable s) = bit_of TCCR1A b s /\
     bit_of TCCR1A b (exec pwm_disable s) = bit_of TCCR1A b s) /\
  (Z.testbit com2_bits b = false ->
     bit_of TCCR2A b (exec pwm_enable s) = bit_of TCCR2A b s /\
     bit_of TCCR2A b (exec pwm_disable s) = bit_of TCCR2A b s) /\
  (Z.testbit led_pins b = false ->
     bit_of PORTA b (exec pwm_enable s) = bit_of PORTA b s /\
     bit_of PORTA b (exec pwm_disable s) = bit_of PORTA b s).
Proof.
  intros Hb. rewrite pwm_enable_exec, pwm_disable_exec.
  unfold bit_of. cbn [io]. repeat split.
  - rewrite (get8_set8_other TCCR2A TCCR1A), get8_set8_same by discriminate.
    now apply or_mask_keeps.
  - rewrite (get8_set8_other PORTA TCCR1A), (get8_set8_other TCCR2A TCCR1A),
      get8_set8_same by discriminate.
    now apply andn_mask_keeps.
  - rewrite get8_set8_same. now apply or_mask_keeps.
  - rewrite (get8_set8_other PORTA TCCR2A), get8_set8_same by discriminate.
    now apply andn_mask_keeps.
  - rewrite (get8_set8_other TCCR2A PORTA), (get8_set8_other TCCR1A PORTA),
      get8_set8_same by discriminate.
    now apply or_mask_keeps.
  - rewrite get8_set8_same. now apply or_mask_keeps.
Qed.

(** X11: of [pwm_enable] and [pwm_disable] the last call wins: disabling
    after enabling leaves exactly the state of disabling alone, and enabling
    after disabling exactly the state of enabling alone. *)
Theorem X11_enable_disable_last_wins (s : state) :
  exec pwm_disable (exec pwm_enable s) = exec pwm_disable s /\
  exec pwm_enable (exec pwm_disable s) = exec pwm_enable s.
Proof.
  split.
  - rewrite (pwm_disable_exec (exec pwm_enable s)), pwm_enable_exec,
      pwm_disable_exec.
    destruct s as [[] c]. cbn.
    now rewrite !wrap8_or_then_andn, wrap8_or_again.
  - rewrite (pwm_enable_exec (exec pwm_disable s)), pwm_disable_exec,
      pwm_enable_exec.
    destruct s as [[] c]. cbn.
    now rewrite !wrap8_andn_then_or, wrap8_or_again.
Qed.

(** X12: after [pwm_enable] all six compare-output mode bits are set, so
    the three compare outputs are connected to their pins. *)
Theorem X12_enable_connects (s : state) :
  com_bits_ok -> outputs_connected (exec pwm_enable s) = true.
Proof.
  intros (Ha & Hb & Hc & Hd & He & Hf).
  rewrite pwm_enable_exec. unfold outputs_connected, bit_of. cbn [io].
  rewrite (get8_set8_other TCCR2A TCCR1A), !get8_set8_same by discriminate.
  rewrite !or_mask_sets; try reflexivity; try assumption;
    (apply com1_bits_bits || apply com2_bits_bits); auto; lia.
Qed.

(** X13: [pwm_set_color_rgb] leaves every 8-bit register with the value it
    had and does not write the timer tops: pins, routing and timer mode are
    as before. *)
Theorem X13_set_color_frame (color : color_ptr) (s : state) :
  (forall r : sfr8,
     get8 r (io (exec (pwm_set_color_rgb color) s)) = get8 r (io s)) /\
  get16 ICR1 (io (exec (pwm_set_color_rgb color) s)) = get16 ICR1 (io s) /\
  get16 ICR2 (io (exec (pwm_set_color_rgb color) s)) = get16 ICR2 (io s).
Proof.
  rewrite pwm_set_color_rgb_exec. cbv zeta. cbn [io]. repeat split.
  - intros r. now rewrite !get8_set16.
  - now rewrite !get16_set16_other by discriminate.
  - now rewrite !get16_set16_other by discriminate.
Qed.

(** X14: of two colour settings the last one wins: the state after setting
    a colour does not depend on any colour set before. *)
Theorem X14_set_color_last_wins (color : color_ptr) (C : color_rgb_t) (s : state) :
  exec (set_color C) (exec (pwm_set_color_rgb color) s) = exec (set_color C) s.
Proof.
  unfold set_color.
  rewrite (pwm_set_color_rgb_exec (Addr_caller C)), pwm_set_color_rgb_exec.
  rewrite (pwm_set_color_rgb_exec (Addr_caller C) s).
  destruct s as [[] c]. reflexivity.
Qed.

(** X15: setting a colour commutes with enabling and with disabling the
    output: a colour may be set before or after either, with the same
    resulting state. *)
Theorem X15_set_color_commutes (color : color_ptr) (s : state) :
  exec pwm_enable (exec (pwm_set_color_rgb color) s)
    = exec (pwm_set_color_rgb color) (exec pwm_enable s) /\
  exec pwm_disable (exec (pwm_set_color_rgb color) s)
    = exec (pwm_set_color_rgb color) (exec pwm_disable s).
Proof.
  split.
  - rewrite (pwm_enable_exec (exec _ s)),
      (pwm_set_color_rgb_exec color (exec pwm_enable s)),
      pwm_enable_exec, pwm_set_color_rgb_exec.
    destruct s as [[] c], color; reflexivity.
  - rewrite (pwm_disable_exec (exec _ s)),
      (pwm_set_color_rgb_exec color (exec pwm_disable s)),
      pwm_disable_exec, pwm_set_color_rgb_exec.
    destruct s as [[] c], color; reflexivity.
Qed.

Lemma in_sync_set_color (color : color_ptr) (s : state) :
  in_sync (exec (pwm_set_color_rgb color) s).
Proof.
  rewrite pwm_set_color_rgb_exec. cbv zeta. unfold in_sync.
  cbn [io pwm_color_rgb]. repeat split.
  - rewrite !get16_set16_other by discriminate. apply get16_set16_same.
  - rewrite get16_set16_other by discriminate. apply get16_set16_same.
  - apply get16_set16_same.
Qed.

Lemma set_own_color_in_sync (s : state) :
  in_sync s -> exec (pwm_set_color_rgb Addr_pwm_color_rgb) s = s.
Proof.
  intros (Hr & Hg & Hb). rewrite pwm_set_color_rgb_exec. cbv zeta.
  destruct s as [[] c]. cbn in *. now rewrite <- Hr, <- Hg, <- Hb.
Qed.

(** X16: passing the pointer that [pwm_get_color_rgb] returns back to
    [pwm_set_color_rgb] keeps the stored colour and writes its table entries
    again; when the compare registers already hold them, and so right after
    any colour setting, the whole state is unchanged. *)
Theorem X16_set_stored_color (s : state) :
  pwm_color_rgb (exec (pwm_set_color_rgb (eval pwm_get_color_rgb s)) s)
    = pwm_color_rgb s /\
  in_sync (exec (pwm_set_color_rgb (eval pwm_get_color_rgb s)) s) /\
  (in_sync s ->
     exec (pwm_set_color_rgb (eval pwm_get_color_rgb s)) s = s) /\
  (forall color : color_ptr,
     exec (pwm_set_color_rgb Addr_pwm_color_rgb)
       (exec (pwm_set_color_rgb color) s)
     = exec (pwm_set_color_rgb color) s).
Proof.
  change (eval pwm_get_color_rgb s) with Addr_pwm_color_rgb.
  split; [ | split; [ | split ] ].
  - rewrite pwm_set_color_rgb_exec. reflexivity.
  - apply in_sync_set_color.
  - apply set_own_color_in_sync.
  - intros color. apply set_own_color_in_sync, in_sync_set_color.
Qed.

(** *** Sequences of calls *)

Lemma exec_calls_cons (c : pwm_call) (l : list pwm_call) (s : state) :
  exec (calls (c :: l)) s = exec (calls l) (exec (call c) s).
Proof. cbn [calls]. now rewrite exec_bind. Qed.

Lemma exec_call_get_color (s : state) : exec (call Call_get_color_rgb) s = s.
Proof. reflexivity. Qed.

Lemma in_sync_enable_disable (s : state) :
  in_sync s -> in_sync (exec pwm_enable s) /\ in_sync (exec pwm_disable s).
Proof.
  intros Hs. rewrite pwm_enable_exec, pwm_disable_exec.
  unfold in_sync in *. cbn [io pwm_color_rgb].
  now rewrite !get16_set8.
Qed.

Lemma in_sync_call (c : pwm_call) (s : state) :
  is_init c = false -> in_sync s -> in_sync (exec (call c) s).
Proof.
  intros Hc Hs. destruct c as [ | | | color | ]; cbn [call].
  - discriminate Hc.
  - exact (proj1 (in_sync_enable_disable s Hs)).
  - exact (proj2 (in_sync_enable_disable s Hs)).
  - apply in_sync_set_color.
  - now rewrite exec_call_get_color.
Qed.

Lemma in_sync_calls (l : list pwm_call) :
  no_init l = true -> forall s : state, in_sync s -> in_sync (exec (calls l) s).
Proof.
  induction l as [| c tl IH]; intros Hl s Hs.
  - exact Hs.
  - cbn [no_init forallb] in Hl. apply andb_true_iff in Hl as [Hc Htl].
    rewrite exec_calls_cons. apply IH; [exact Htl | ].
    apply in_sync_call; [now apply negb_true_iff | exact Hs].
Qed.

Lemma in_sync_init_startup (m : avr_io) : in_sync (exec pwm_init (startup m)).
Proof. rewrite pwm_init_exec. repeat split. Qed.

(** X17: once [main] has called [pwm_init], whatever sequence of
    [pwm_enable], [pwm_disable], [pwm_set_color_rgb] and [pwm_get_color_rgb]
    calls follows, the compare registers hold the table entries of the
    colour that [pwm_get_color_rgb] reports. *)
Theorem X17_compare_tracks_color (m : avr_io) (l : list pwm_call) :
  no_init l = true ->
  in_sync (exec (calls (Call_init :: l)) (startup m)) /\
  get16 OCR1A (io (exec (calls (Call_init :: l)) (startup m)))
    = value_at (red (eval get_color (exec (calls (Call_init :: l)) (startup m)))).
Proof.
  intros Hl. rewrite exec_calls_cons. cbn [call].
  assert (Hs : in_sync (exec (calls l) (exec pwm_init (startup m)))).
  { apply in_sync_calls; [exact Hl | apply in_sync_init_startup]. }
  split; [exact Hs | exact (proj1 Hs)].
Qed.

Lemma value_at_zero_only (L : Z) : is_uint8 L -> value_at L = 0 -> L = 0.
Proof.
  intros [Hlo Hhi] Hz. change (2 ^ 8) with 256 in Hhi.
  destruct (Z.eq_dec L 0) as [-> | Hne]; [reflexivity | ].
  assert (1 <= value_at L) by (apply value_at_positive; lia). lia.
Qed.

(** X18: [pwm_init] does not reset the stored colour: called again after a
    colour was set, it zeroes the compare registers while
    [pwm_get_color_rgb] still reports the colour set before, so for every
    colour other than (0,0,0) the reported colour is no longer the one
    output. *)
Theorem X18_init_after_set_color (C : color_rgb_t) (s : state) :
  color_ok C -> C <> Color 0 0 0 ->
  eval get_color (exec pwm_init (exec (set_color C) s)) = C /\
  get16 OCR1A (io (exec pwm_init (exec (set_color C) s))) = 0 /\
  get16 OCR1B (io (exec pwm_init (exec (set_color C) s))) = 0 /\
  get16 OCR2A (io (exec pwm_init (exec (set_color C) s))) = 0 /\
  ~ in_sync (exec pwm_init (exec (set_color C) s)).
Proof.
  intros (Hr & Hg & Hb) Hne. unfold set_color.
  rewrite pwm_init_exec, pwm_set_color_rgb_exec. cbv zeta.
  unfold in_sync. cbn [io pwm_color_rgb get16 io_OCR1A io_OCR1B io_OCR2A].
  split; [reflexivity | ]. repeat (split; [reflexivity | ]).
  change (eval (deref (Addr_caller C)) s) with C.
  intros (Er & Eg & Eb). apply Hne.
  destruct C as [r g b]. cbn [red green blue] in *.
  f_equal; apply value_at_zero_only; auto.
Qed.

Lemma pwm_init_state_ok (s : state) : state_ok s -> state_ok (exec pwm_init s).
Proof.
  intros [[H8 H16] Hc]. rewrite pwm_init_exec. split; [ | exact Hc].
  cbn [io]. split.
  - intros r. destruct r; cbn [get8 io_PORTA io_DDRA io_TOCPMSA0 io_TOCPMSA1
      io_TOCPMCOE io_TCCR1A io_TCCR1B io_TCCR2A io_TCCR2B io_SREG];
      try apply wrap8_range. exact (H8 SREG).
  - intros r. unfold is_uint16. change (2 ^ 16) with 65536.
    destruct r; cbn [get16 io_OCR1A io_OCR1B io_OCR2A io_ICR1 io_ICR2];
      unfold UINT16_MAX; lia.
Qed.

Lemma call_state_ok (c : pwm_call) (s : state) :
  call_ok c -> state_ok s -> state_ok (exec (call c) s).
Proof.
  intros Hc Hs. destruct c as [ | | | color | ]; cbn [call].
  - exact (pwm_init_state_ok s Hs).
  - exact (proj1 (pwm_enable_disable_state_ok s Hs)).
  - exact (proj2 (pwm_enable_disable_state_ok s Hs)).
  - apply pwm_set_color_rgb_state_ok; [exact Hs | ].
    destruct color as [ | obj]; [exact (proj2 Hs) | exact Hc].
  - now rewrite exec_call_get_color.
Qed.

Lemma calls_state_ok (l : list pwm_call) (s : state) :
  state_ok s -> Forall call_ok l -> state_ok (exec (calls l) s).
Proof.
  intros Hs Hl. revert s Hs.
  induction Hl as [| c tl Hc _ IH]; intros s Hs.
  - exact Hs.
  - rewrite exec_calls_cons. apply IH. now apply call_state_ok.
Qed.

(** X19: every sequence of calls, [pwm_init] included, that passes colours
    of 8-bit components keeps every register within its width and the
    stored colour within 8 bits per component. *)
Theorem X19_calls_keep_widths (l : list pwm_call) (s : state) :
  state_ok s -> Forall call_ok l -> state_ok (exec (calls l) s).
Proof. apply calls_state_ok. Qed.

Lemma call_frame8 (c : pwm_call) (r : sfr8) (s : state) :
  is_init c = false -> r <> PORTA -> r <> TCCR1A -> r <> TCCR2A ->
  get8 r (io (exec (call c) s)) = get8 r (io s).
Proof.
  intros Hc Hp H1 H2. destruct c as [ | | | color | ]; cbn [call].
  - discriminate Hc.
  - rewrite pwm_enable_exec. cbn [io].
    now rewrite !get8_set8_other by (intros E; symmetry in E; contradiction).
  - rewrite pwm_disable_exec. cbn [io].
    now rewrite !get8_set8_other by (intros E; symmetry in E; contradiction).
  - rewrite pwm_set_color_rgb_exec. cbv zeta. cbn [io].
    now rewrite !get8_set16.
  - now rewrite exec_call_get_color.
Qed.

Lemma call_frame_top (c : pwm_call) (s : state) :
  is_init c = false ->
  get16 ICR1 (io (exec (call c) s)) = get16 ICR1 (io s) /\
  get16 ICR2 (io (exec (call c) s)) = get16 ICR2 (io s).
Proof.
  intros Hc. destruct c as [ | | | color | ]; cbn [call].
  - discriminate Hc.
  - rewrite pwm_enable_exec. cbn [io]. now rewrite !get16_set8.
  - rewrite pwm_disable_exec. cbn [io]. now rewrite !get16_set8.
  - rewrite pwm_set_color_rgb_exec. cbv zeta. cbn [io].
    now rewrite !get16_set16_other by discriminate.
  - now rewrite exec_call_get_color.
Qed.

Lemma calls_frame_top (l : list pwm_call) :
  no_init l = true -> forall s : state,
  get16 ICR1 (io (exec (calls l) s)) = get16 ICR1 (io s) /\
  get16 ICR2 (io (exec (calls l) s)) = get16 ICR2 (io s).
Proof.
  induction l as [| c tl IH]; intros Hl s.
  - split; reflexivity.
  - cbn [no_init forallb] in Hl. apply andb_true_iff in Hl as [Hc Htl].
    apply negb_true_iff in Hc.
    rewrite exec_calls_cons.
    destruct (IH Htl (exec (call c) s)) as [-> ->].
    now apply call_frame_top.
Qed.

Lemma pwm_init_tops (s : state) :
  get16 ICR1 (io (exec pwm_init s)) = UINT16_MAX /\
  get16 ICR2 (io (exec pwm_init s)) = UINT16_MAX.
Proof. rewrite pwm_init_exec. split; reflexivity. Qed.

(** X20: after [pwm_init], whatever calls other than [pwm_init] follow with
    colours of 8-bit components, no compare register exceeds the top value
    of its timer, which stays [UINT16_MAX] on both timers. *)
Theorem X20_compare_within_top (l : list pwm_call) (s : state) :
  state_ok s -> Forall call_ok l -> no_init l = true ->
  get16 ICR1 (io (exec (calls (Call_init :: l)) s)) = UINT16_MAX /\
  get16 ICR2 (io (exec (calls (Call_init :: l)) s)) = UINT16_MAX /\
  get16 OCR1A (io (exec (calls (Call_init :: l)) s))
    <= get16 ICR1 (io (exec (calls (Call_init :: l)) s)) /\
  get16 OCR1B (io (exec (calls (Call_init :: l)) s))
    <= get16 ICR1 (io (exec (calls (Call_init :: l)) s)) /\
  get16 OCR2A (io (exec (calls (Call_init :: l)) s))
    <= get16 ICR2 (io (exec (calls (Call_init :: l)) s)).
Proof.
  intros Hs Hok Hl. rewrite exec_calls_cons. cbn [call].
  destruct (calls_frame_top l Hl (exec pwm_init s)) as [E1 E2].
  destruct (pwm_init_tops s) as [T1 T2].
  rewrite E1, E2, T1, T2.
  assert (Hfin : state_ok (exec (calls l) (exec pwm_init s))).
  { apply calls_state_ok; [now apply pwm_init_state_ok | exact Hok]. }
  destruct Hfin as [[_ H16] _].
  pose proof (H16 OCR1A) as [_ Ha]. pose proof (H16 OCR1B) as [_ Hb].
  pose proof (H16 OCR2A) as [_ Hc]. clear H16.
  change (2 ^ 16) with 65536 in Ha, Hb, Hc. unfold UINT16_MAX.
  repeat split; lia.
Qed.

Lemma call_keeps_SREG (c : pwm_call) (s : state) :
  get8 SREG (io (exec (call c) s)) = get8 SREG (io s).
Proof.
  destruct c as [ | | | color | ]; cbn [call].
  - rewrite pwm_init_exec. reflexivity.
  - rewrite pwm_enable_exec. cbn [io].
    now rewrite !get8_set8_other by discriminate.
  - rewrite pwm_disable_exec. cbn [io].
    now rewrite !get8_set8_other by discriminate.
  - rewrite pwm_set_color_rgb_exec. cbv zeta. cbn [io].
    now rewrite !get8_set16.
  - now rewrite exec_call_get_color.
Qed.

(** X21: no sequence of calls of the driver, [pwm_init] included, changes
    [SREG]: the caller finds the interrupt-enable flag and the other status
    flags as it left them. *)
Theorem X21_calls_keep_SREG (l : list pwm_call) (s : state) :
  get8 SREG (io (exec (calls l) s)) = get8 SREG (io s).
Proof.
  revert s. induction l as [| c tl IH]; intros s.
  - reflexivity.
  - rewrite exec_calls_cons, IH. apply call_keeps_SREG.
Qed.

(** X22: only [pwm_init] configures the timers and the pin directions: a
    sequence of calls without [pwm_init] leaves every 8-bit register other
    than [PORTA], [TCCR1A] and [TCCR2A], and the tops of both timers, as
    they were. *)
Theorem X22_configuration_only_by_init (l : list pwm_call) (s : state) :
  no_init l = true ->
  (forall r : sfr8, r <> PORTA -> r <> TCCR1A -> r <> TCCR2A ->
     get8 r (io (exec (calls l) s)) = get8 r (io s)) /\
  get16 ICR1 (io (exec (calls l) s)) = get16 ICR1 (io s) /\
  get16 ICR2 (io (exec (calls l) s)) = get16 ICR2 (io s).
Proof.
  intros Hl. split; [ | now apply calls_frame_top].
  intros r Hp H1 H2. revert s.
  induction l as [| c tl IH]; intros s.
  - reflexivity.
  - cbn [no_init forallb] in Hl. apply andb_true_iff in Hl as [Hc Htl].
    apply negb_true_iff in Hc.
    rewrite exec_calls_cons, (IH Htl). now apply call_frame8.
Qed.

(** *** main.c *)

Lemma main_run_S (m : avr_io) (n : nat) :
  main_run (S n) m = (At_while, exec pwm_init (startup m)).
Proof.
  unfold main_run. induction n as [| k IH].
  - reflexivity.
  - rewrite Nat.iter_succ, IH. reflexivity.
Qed.

(** X23: [main] calls [pwm_init] once and then stays in its empty loop for
    ever: from its first step on, the state is the one [pwm_init] left at
    startup and never changes; the stored colour is (0,0,0), the LED pins
    are at the inactive level and no compare output is connected, so the
    LEDs stay dark. *)
Theorem X23_main_idles (m : avr_io) (n : nat) :
  pin_bits_ok -> mode_bits_apart ->
  main_run (S n) m = (At_while, exec pwm_init (startup m)) /\
  main_step (main_run (S n) m) = main_run (S n) m /\
  eval get_color (snd (main_run (S n) m)) = Color 0 0 0 /\
  pins_inactive (snd (main_run (S n) m)) = true /\
  outputs_disconnected (snd (main_run (S n) m)) = true.
Proof.
  intros Hpins Hmode. rewrite main_run_S. cbn [snd main_step].
  split; [reflexivity | split; [reflexivity | split ] ].
  - rewrite pwm_init_exec. reflexivity.
  - split.
    + exact (proj1 (pwm_init_pins (startup m) Hpins)).
    + exact (pwm_init_outputs_disconnected (startup m) Hmode).
Qed.

End MoreDriverProperties.

(** ** Instances on the ATtiny841 *)

Section Instances.

#[local] Existing Instance attiny841.

Lemma attiny841_com_bits_ok : @com_bits_ok attiny841.
Proof. unfold com_bits_ok. cbn. lia. Defined.

Lemma attiny841_mode_bits_apart : @mode_bits_apart attiny841.
Proof. unfold mode_bits_apart. cbn. repeat split; discriminate. Defined.

Lemma sample_state_ok : state_ok sample_state.
Proof.
  split; [split | ].
  - intros r. unfold is_uint8. destruct r; cbn; lia.
  - intros r. unfold is_uint16. destruct r; cbn; lia.
  - unfold color_ok, is_uint8. cbn. lia.
Defined.


Lemma X6_pwm_init_no_output_witness :
  pin_bits_ok /\ mode_bits_apart /\
  pins_inactive (exec pwm_init sample_state) = true /\
  pins_are_outputs (exec pwm_init sample_state) = true /\
  outputs_disconnected (exec pwm_init sample_state) = true.
Proof.
  split; [exact attiny841_pin_bits_ok | ].
  split; [exact attiny841_mode_bits_apart | ].
  apply (X6_pwm_init_no_output sample_state).
  - exact attiny841_pin_bits_ok.
  - exact attiny841_mode_bits_apart.
Defined.

(** Two states that agree on [PORTA], [DDRA], [SREG] and the colour and
    differ in every other register. *)
Lemma X8_pwm_init_overwrites_witness :
  exec pwm_init sample_state
  = exec pwm_init
      {| io := Io 0x05 0x03 0 0 0 0xff 0 0xff 0 0x82 1 2 3 4 5;
         pwm_color_rgb := Color 12 200 255 |}.
Proof.
  apply (X8_pwm_init_overwrites sample_state
           {| io := Io 0x05 0x03 0 0 0 0xff 0 0xff 0 0x82 1 2 3 4 5;
              pwm_color_rgb := Color 12 200 255 |}); reflexivity.
Defined.

Lemma X9_enable_disable_frame_witness :
  DDRA <> PORTA /\ DDRA <> TCCR1A /\ DDRA <> TCCR2A /\
  get8 DDRA (io (exec pwm_enable sample_state)) = get8 DDRA (io sample_state) /\
  get8 DDRA (io (exec pwm_disable sample_state)) = get8 DDRA (io sample_state).
Proof.
  split; [discriminate | ]. split; [discriminate | ]. split; [discriminate | ].
  apply (proj1 (X9_enable_disable_frame sample_state) DDRA); discriminate.
Defined.

(** Bit [WGM11] of [TCCR1A], which is outside the [COM1xx] mask. *)
Lemma X10_enable_disable_keep_other_bits_witness :
  0 <= 1 < 8 /\ Z.testbit com1_bits 1 = false /\
  bit_of TCCR1A 1 (exec pwm_enable sample_state) = bit_of TCCR1A 1 sample_state /\
  bit_of TCCR1A 1 (exec pwm_disable sample_state) = bit_of TCCR1A 1 sample_state.
Proof.
  split; [lia | ]. split; [reflexivity | ].
  apply (proj1 (X10_enable_disable_keep_other_bits sample_state 1
                  (conj (Z.le_0_1) (eq_refl : (1 ?= 8) = Lt)))).
  reflexivity.
Defined.

Lemma X12_enable_connects_witness :
  com_bits_ok /\ outputs_connected (exec pwm_enable sample_state) = true.
Proof.
  split; [exact attiny841_com_bits_ok | ].
  apply (X12_enable_connects sample_state). exact attiny841_com_bits_ok.
Defined.

(** A state whose compare registers hold the entries of the stored
    colour. *)
Lemma X16_set_stored_color_witness :
  in_sync (exec (set_color (Color 1 2 3)) sample_state) /\
  exec (pwm_set_color_rgb Addr_pwm_color_rgb)
    (exec (set_color (Color 1 2 3)) sample_state)
  = exec (set_color (Color 1 2 3)) sample_state.
Proof.
  split; [repeat split | ].
  apply (proj1 (proj2 (proj2
           (X16_set_stored_color (exec (set_color (Color 1 2 3)) sample_state))))).
  repeat split.
Defined.

Lemma X17_compare_tracks_color_witness :
  no_init [Call_set_color_rgb (Addr_caller (Color 255 0 7)); Call_enable;
           Call_get_color_rgb; Call_disable] = true /\
  in_sync
    (exec (calls (Call_init ::
             [Call_set_color_rgb (Addr_caller (Color 255 0 7)); Call_enable;
              Call_get_color_rgb; Call_disable]))
       (startup sample_io)).
Proof.
  split; [reflexivity | ].
  apply (proj1 (X17_compare_tracks_color sample_io
           [Call_set_color_rgb (Addr_caller (Color 255 0 7)); Call_enable;
            Call_get_color_rgb; Call_disable] eq_refl)).
Defined.

Lemma X18_init_after_set_color_witness :
  color_ok (Color 255 0 7) /\ Color 255 0 7 <> Color 0 0 0 /\
  eval get_color (exec pwm_init (exec (set_color (Color 255 0 7)) sample_state))
    = Color 255 0 7 /\
  ~ in_sync (exec pwm_init (exec (set_color (Color 255 0 7)) sample_state)).
Proof.
  assert (Hok : color_ok (Color 255 0 7)).
  { unfold color_ok, is_uint8. cbn. lia. }
  assert (Hne : Color 255 0 7 <> Color 0 0 0) by discriminate.
  destruct (X18_init_after_set_color (Color 255 0 7) sample_state Hok Hne)
    as (Hget & _ & _ & _ & Hsync).
  repeat split; try exact Hget; try exact Hsync; try exact Hne; apply Hok.
Defined.

Lemma sample_calls_ok :
  Forall call_ok
    [Call_set_color_rgb (Addr_caller (Color 255 0 7)); Call_enable;
     Call_set_color_rgb Addr_pwm_color_rgb; Call_disable].
Proof.
  constructor.
  - unfold call_ok, color_ok, is_uint8. cbn. lia.
  - constructor; [exact I | ]. constructor; [exact I | ].
    constructor; [exact I | constructor].
Defined.

Lemma X19_calls_keep_widths_witness :
  state_ok sample_state /\
  Forall call_ok
    (Call_init :: [Call_set_color_rgb (Addr_caller (Color 255 0 7)); Call_enable;
                   Call_set_color_rgb Addr_pwm_color_rgb; Call_disable]) /\
  state_ok
    (exec (calls
       (Call_init :: [Call_set_color_rgb (Addr_caller (Color 255 0 7)); Call_enable;
                      Call_set_color_rgb Addr_pwm_color_rgb; Call_disable]))
       sample_state).
Proof.
  assert (Hl : Forall call_ok
    (Call_init :: [Call_set_color_rgb (Addr_caller (Color 255 0 7)); Call_enable;
                   Call_set_color_rgb Addr_pwm_color_rgb; Call_disable])).
  { constructor; [exact I | exact sample_calls_ok]. }
  split; [exact sample_state_ok | ]. split; [exact Hl | ].
  apply (X19_calls_keep_widths _ sample_state sample_state_ok Hl).
Defined.

Lemma X20_compare_within_top_witness :
  state_ok sample_state /\
  get16 OCR1A (io (exec (calls
     (Call_init :: [Call_set_color_rgb (Addr_caller (Color 255 0 7)); Call_enable;
                    Call_set_color_rgb Addr_pwm_color_rgb; Call_disable]))
     sample_state))
  <= get16 ICR1 (io (exec (calls
     (Call_init :: [Call_set_color_rgb (Addr_caller (Color 255 0 7)); Call_enable;
                    Call_set_color_rgb Addr_pwm_color_rgb; Call_disable]))
     sample_state)).
Proof.
  split; [exact sample_state_ok | ].
  exact (proj1 (proj2 (proj2
    (X20_compare_within_top _ sample_state sample_state_ok
       sample_calls_ok eq_refl)))).
Defined.

Lemma X22_configuration_only_by_init_witness :
  no_init [Call_enable; Call_set_color_rgb (Addr_caller (Color 9 9 9));
           Call_disable] = true /\
  get8 TCCR1B (io (exec (calls
     [Call_enable; Call_set_color_rgb (Addr_caller (Color 9 9 9)); Call_disable])
     sample_state))
  = get8 TCCR1B (io sample_state).
Proof.
  split; [reflexivity | ].
  apply (proj1 (X22_configuration_only_by_init
           [Call_enable; Call_set_color_rgb (Addr_caller (Color 9 9 9));
            Call_disable] sample_state eq_refl) TCCR1B); discriminate.
Defined.

Lemma X23_main_idles_witness :
  pin_bits_ok /\ mode_bits_apart /\
  main_run 3 sample_io = (At_while, exec pwm_init (startup sample_io)) /\
  pins_inactive (snd (main_run 3 sample_io)) = true /\
  outputs_disconnected (snd (main_run 3 sample_io)) = true.
Proof.
  destruct (X23_main_idles sample_io 2 attiny841_pin_bits_ok
              attiny841_mode_bits_apart) as (Hrun & _ & _ & Hpins & Hout).
  split; [exact attiny841_pin_bits_ok | ].
  split; [exact attiny841_mode_bits_apart | ].
  split; [exact Hrun | ]. split; [exact Hpins | exact Hout].
Defined.

End Instances.
